(** * folium_offline: offline asset lists, the MBTiles template override and
      the packaging script

    A shallow embedding of [folium_offline.py] and [build_simple_server.py].
    The two scripts assign module attributes of the [folium] package, build
    one map and save it, and start one external command.  The attributes,
    the files on disk and the record of started commands form the [world];
    a Python function is a computation in the monad [py] over it. *)

From Stdlib Require Import Ascii String.
From stdpp Require Import base strings list gmap.

Set Default Proof Using "Type".
Open Scope string_scope.

(** ** Python [str] operations

    A [str] is modelled as a [string].  The only characters the code ever
    inspects are ASCII, so working on the UTF-8 bytes of a text decides the
    same tests as working on its code points. *)

Module str.

(** [s.startswith(p)] *)
Fixpoint startswith (s p : string) : bool :=
  match p, s with
  | EmptyString, _ => true
  | String _ _, EmptyString => false
  | String b p', String a s' => Ascii.eqb a b && startswith s' p'
  end.

(** [s.endswith(suf)]: some tail of [s] is [suf]. *)
Fixpoint endswith (s suf : string) : bool :=
  String.eqb s suf ||
  match s with
  | EmptyString => false
  | String _ s' => endswith s' suf
  end.

(** [needle in hay] *)
Fixpoint contains (hay needle : string) : bool :=
  startswith hay needle ||
  match hay with
  | EmptyString => false
  | String _ hay' => contains hay' needle
  end.

Definition is_space (c : Ascii.ascii) : bool :=
  Ascii.eqb c " " || Ascii.eqb c "010" || Ascii.eqb c "009" || Ascii.eqb c "013".

(** [s.lstrip()] *)
Fixpoint lstrip (s : string) : string :=
  match s with
  | String c s' => if is_space c then lstrip s' else s
  | EmptyString => EmptyString
  end.

(** [s.rstrip()] *)
Fixpoint rstrip (s : string) : string :=
  match s with
  | String c s' =>
      match rstrip s' with
      | EmptyString => if is_space c then EmptyString else String c EmptyString
      | r => String c r
      end
  | EmptyString => EmptyString
  end.

(** [s.strip()] *)
Definition strip (s : string) : string := rstrip (lstrip s).

(** The text before the first occurrence of character [c], when there is
    one: [s[:s.index(c)]]. *)
Fixpoint before (c : Ascii.ascii) (s : string) : option string :=
  match s with
  | EmptyString => None
  | String a s' =>
      if Ascii.eqb a c then Some EmptyString
      else option_map (String a) (before c s')
  end.

(** [s[n:]] *)
Fixpoint drop (n : nat) (s : string) : string :=
  match n, s with
  | O, _ => s
  | S _, EmptyString => EmptyString
  | S n', String _ s' => drop n' s'
  end.

End str.

(** ** [os.path] on a POSIX system ([posixpath])

    The script's interpreter line is [/usr/local/bin/python3], a POSIX path;
    [os.path] is then [posixpath]. *)

Module os_path.

Definition sep : string := "/".

(** One round of the loop of [posixpath.join]:
    [if b.startswith(sep): path = b]
    [elif not path or path.endswith(sep): path += b]
    [else: path += sep + b] *)
Definition join_step (path b : string) : string :=
  if str.startswith b sep then b
  else if String.eqb path "" || str.endswith path sep then path +:+ b
  else path +:+ sep +:+ b.

(** [os.path.join(a, *p)] *)
Definition join (a : string) (p : list string) : string :=
  fold_left join_step p a.

(** [os.path.basename(p)]: what follows the last [sep] of [p]. *)
Fixpoint basename (p : string) : string :=
  match p with
  | EmptyString => EmptyString
  | String c p' =>
      if str.contains p' sep then basename p'
      else if Ascii.eqb c "/" then p'
      else p
  end.

End os_path.


(** ** [jinja2] templates

    A template is kept as its source text.  [lex] splits the source at the
    delimiters [{{ }}], [{% %}] and [{# #}]; a macro is the run of tokens
    between its [macro] statement and the next [endmacro]; calling it
    writes the data verbatim and each [{{ e }}] as the text the caller's
    objects give for [e].  Statements inside a macro body, which the one
    template of this program does not have, are not modelled. *)

Module jinja2.

Record Template := { source : string }.

Inductive token :=
| Data (text : string)
| Var (expr : string)
| Block (stmt : string)
| Comment (text : string).

Inductive mode := InData | InVar | InBlock | InComment.

Definition snoc (acc : string) (c : Ascii.ascii) : string :=
  acc +:+ String c EmptyString.

Definition emit (t : token) (rest : option (list token)) : option (list token) :=
  option_map (cons t) rest.

Definition emit_data (acc : string) (rest : option (list token)) : option (list token) :=
  if String.eqb acc "" then rest else emit (Data acc) rest.

(** [lex m acc s]: the tokens of [s], read in mode [m] with [acc] read so
    far of the current token.  A tag left open is a syntax error. *)
Fixpoint lex (m : mode) (acc s : string) : option (list token) :=
  match s with
  | EmptyString =>
      match m with
      | InData => emit_data acc (Some [])
      | _ => None
      end
  | String a s' =>
      let keep := lex m (snoc acc a) s' in
      match s' with
      | String b s'' =>
          match m with
          | InData =>
              if Ascii.eqb a "{" then
                if Ascii.eqb b "{" then emit_data acc (lex InVar "" s'')
                else if Ascii.eqb b "%" then emit_data acc (lex InBlock "" s'')
                else if Ascii.eqb b "#" then emit_data acc (lex InComment "" s'')
                else keep
              else keep
          | InVar =>
              if Ascii.eqb a "}" && Ascii.eqb b "}"
              then emit (Var acc) (lex InData "" s'') else keep
          | InBlock =>
              if Ascii.eqb a "%" && Ascii.eqb b "}"
              then emit (Block acc) (lex InData "" s'') else keep
          | InComment =>
              if Ascii.eqb a "#" && Ascii.eqb b "}"
              then emit (Comment acc) (lex InData "" s'') else keep
          end
      | EmptyString => keep
      end
  end.

Definition tokens (t : Template) : option (list token) :=
  lex InData "" (source t).

(** The name declared by a statement [macro name(params)]. *)
Definition macro_name (stmt : string) : option string :=
  let s := str.strip stmt in
  if str.startswith s "macro " then option_map str.strip (str.before "(" (str.drop 6 s))
  else None.

Definition is_endmacro (stmt : string) : bool :=
  String.eqb (str.strip stmt) "endmacro".

Fixpoint until_endmacro (ts : list token) : option (list token) :=
  match ts with
  | [] => None
  | Block b :: _ => if is_endmacro b then Some [] else None
  | t :: ts' => option_map (cons t) (until_endmacro ts')
  end.

Fixpoint find_macro (name : string) (ts : list token) : option (list token) :=
  match ts with
  | [] => None
  | Block b :: ts' =>
      if decide (macro_name b = Some name) then until_endmacro ts'
      else find_macro name ts'
  | _ :: ts' => find_macro name ts'
  end.

(** The output of a macro body; [eval e] is the text of expression [e]
    in the caller's context, [None] when evaluating it raises. *)
Fixpoint render (eval : string -> option string) (ts : list token) : option string :=
  match ts with
  | [] => Some ""
  | Data s :: ts' => option_map (String.append s) (render eval ts')
  | Var e :: ts' =>
      match eval (str.strip e), render eval ts' with
      | Some v, Some r => Some (v +:+ r)
      | _, _ => None
      end
  | Comment _ :: ts' => render eval ts'
  | Block _ :: _ => None
  end.

(** [template.module.<name>(...)] *)
Definition call_macro (t : Template) (name : string)
    (eval : string -> option string) : option string :=
  match tokens t with
  | Some ts =>
      match find_macro name ts with
      | Some body => render eval body
      | None => None
      end
  | None => None
  end.

End jinja2.

(** ** The parts of [folium] the scripts touch *)

Module folium.

(** A decimal literal [digits * 10^-places], as written in the source. *)
Record decimal := { digits : Z; places : nat }.

(** The keyword arguments [main] gives to [folium.Map]. *)
Record Map := {
  location : list decimal;
  tiles : string;
  attr : string;
  min_zoom : Z;
  max_zoom : Z;
  zoom_start : Z;
  control_scale : bool
}.

(** What a tile layer answers to the expressions of its template:
    [this.get_name()], [this.tiles|tojson], [this.options|tojson] and
    [this._parent.get_name()]. *)
Record TileLayer := {
  get_name : string;
  tiles_tojson : string;
  options_tojson : string;
  _parent_get_name : string
}.

Definition eval (this : TileLayer) (e : string) : option string :=
  if String.eqb e "this.get_name()" then Some (get_name this)
  else if String.eqb e "this.tiles|tojson" then Some (tiles_tojson this)
  else if String.eqb e "this.options|tojson" then Some (options_tojson this)
  else if String.eqb e "this._parent.get_name()" then Some (_parent_get_name this)
  else None.

(** The script a layer contributes to the page: the macro [script] of
    its template, called on the layer. *)
Definition script (t : jinja2.Template) (this : TileLayer) : option string :=
  jinja2.call_macro t "script" (eval this).

(** A saved page: the map together with the attribute values it was
    rendered under.  Turning it into HTML text is the library's work. *)
Record page := {
  page_js : list (string * string);
  page_css : list (string * string);
  page_template : jinja2.Template;
  page_map : Map
}.

End folium.

(** ** The world and the monad of Python computations *)

(** What a file holds: a page saved by [folium], or any other data (a
    script, a style sheet, a tile set). *)
Inductive content :=
| Html (p : folium.page)
| Raw (data : string).

Record world := {
  _default_js : list (string * string);      (* folium.folium._default_js *)
  _default_css : list (string * string);     (* folium.folium._default_css *)
  TileLayer_template : jinja2.Template;      (* folium.raster_layers.TileLayer._template *)
  files : gmap string content;               (* the files on disk, by path *)
  spawned : list (list string);              (* argument lists of the commands started *)
  exit_status : list string -> option Z      (* how a command ends; None: it cannot be started *)
}.

Inductive exn := OSError.

Inductive outcome (A : Type) :=
| Returns (a : A) (w : world)
| Raises (e : exn) (w : world).
Arguments Returns {A} a w.
Arguments Raises {A} e w.

Definition py (A : Type) : Type := world -> outcome A.

Definition ret {A} (a : A) : py A := fun w => Returns a w.

Definition bind {A B} (c : py A) (k : A -> py B) : py B :=
  fun w =>
    match c w with
    | Returns a w' => k a w'
    | Raises e w' => Raises e w'
    end.

Declare Scope py_scope.
Delimit Scope py_scope with py.
Bind Scope py_scope with py.
Notation "x <- c1 ;; c2" := (bind c1 (fun x => c2))
  (at level 100, c1 at next level, c2 at level 200, right associativity) : py_scope.
Notation "c1 ;; c2" := (bind c1 (fun _ => c2))
  (at level 100, c2 at level 200, right associativity) : py_scope.

(** The world an outcome ends in. *)
Definition final {A} (o : outcome A) : world :=
  match o with
  | Returns _ w => w
  | Raises _ w => w
  end.

Definition returns {A} (o : outcome A) : bool :=
  match o with
  | Returns _ _ => true
  | Raises _ _ => false
  end.

(** Attribute assignments. *)
Definition set_default_js (v : list (string * string)) : py unit :=
  fun w => Returns tt
    {| _default_js := v; _default_css := _default_css w;
       TileLayer_template := TileLayer_template w; files := files w;
       spawned := spawned w; exit_status := exit_status w |}.

Definition set_default_css (v : list (string * string)) : py unit :=
  fun w => Returns tt
    {| _default_js := _default_js w; _default_css := v;
       TileLayer_template := TileLayer_template w; files := files w;
       spawned := spawned w; exit_status := exit_status w |}.

Definition set_TileLayer_template (v : jinja2.Template) : py unit :=
  fun w => Returns tt
    {| _default_js := _default_js w; _default_css := _default_css w;
       TileLayer_template := v; files := files w;
       spawned := spawned w; exit_status := exit_status w |}.

(** The same world over another set of files. *)
Definition with_files (fs : gmap string content) (w : world) : world :=
  {| _default_js := _default_js w; _default_css := _default_css w;
     TileLayer_template := TileLayer_template w; files := fs;
     spawned := spawned w; exit_status := exit_status w |}.

(** [m.save(outfile)]: the page for [m] under the attributes in force
    replaces whatever [outfile] held. *)
Definition Map_save (m : folium.Map) (outfile : string) : py unit :=
  fun w =>
    let p := {| folium.page_js := _default_js w; folium.page_css := _default_css w;
                folium.page_template := TileLayer_template w; folium.page_map := m |} in
    Returns tt (with_files (<[outfile := Html p]> (files w)) w).

(** The same world with one more started command. *)
Definition with_spawned (args : list string) (w : world) : world :=
  {| _default_js := _default_js w; _default_css := _default_css w;
     TileLayer_template := TileLayer_template w; files := files w;
     spawned := spawned w ++ [args]; exit_status := exit_status w |}.

Module subprocess.

(** [subprocess.call(args)]: start the command, wait for it and return
    its exit status; [OSError] when it cannot be started. *)
Definition call (args : list string) : py Z :=
  fun w =>
    match exit_status w args with
    | Some code => Returns code (with_spawned args w)
    | None => Raises OSError (with_spawned args w)
    end.

End subprocess.

(** ** [folium_offline.py] *)

Module folium_offline.

(** Each path of [set_offline] and [set_online] is written as an f-string
    around one [os.path.join] call; formatting a [str] with an empty
    format specification gives the [str] itself. *)
Definition set_offline (file_path : string) : py unit :=
  (set_default_js [
     ("leaflet", os_path.join file_path ["leaflet.js"]);
     ("jquery", os_path.join file_path ["jquery-1.12.4.min.js"]);
     ("bootstrap", os_path.join file_path ["bootstrap.min.js"]);
     ("awesome_markers", os_path.join file_path ["leaflet.awesome-markers.js"]);
     ("sql", os_path.join file_path ["sql.js"]);
     ("sql-wasm", os_path.join file_path ["sql-wasm.js"]);
     ("sql-asm", os_path.join file_path ["sql-adm.js"]);
     ("mbtiles", os_path.join file_path ["Leaflet.TileLayer.MBTiles.js"])
   ] ;;
   set_default_css [
     ("leaflet_css", os_path.join file_path ["leaflet.css"]);
     ("bootstrap_css", os_path.join file_path ["bootstrap.min.css"]);
     ("bootstrap_theme_css", os_path.join file_path ["bootstrap-theme.min.css"]);
     ("awesome_markers_font_css", os_path.join file_path ["font-awesome.min.css"]);
     ("awesome_markers_css", os_path.join file_path ["leaflet.awesome-markers.css"]);
     ("awesome_rotate_css", os_path.join file_path ["leaflet.awesome.rotate.css"])
   ])%py.

Definition set_online (file_path : string) : py unit :=
  set_default_js [
    ("leaflet", "https://cdn.jsdelivr.net/npm/leaflet@1.5.1/dist/leaflet.js");
    ("jquery", "https://code.jquery.com/jquery-1.12.4.min.js");
    ("bootstrap", "https://maxcdn.bootstrapcdn.com/bootstrap/3.2.0/js/bootstrap.min.js");
    ("awesome_markers", "https://cdnjs.cloudflare.com/ajax/libs/Leaflet.awesome-markers/2.0.2/leaflet.awesome-markers.js");
    ("sql", "https://unpkg.com/sql.js@0.3.2/js/sql.js");
    ("mbtiles", os_path.join file_path ["Leaflet.TileLayer.MBTiles.js"])
  ].

Definition mbtiles_template : jinja2.Template :=
  {| jinja2.source := "
        {% macro script(this, kwargs) %}
            var {{ this.get_name() }} = L.tileLayer.mbTiles(
                {{ this.tiles|tojson }},
                {{ this.options|tojson }}
            ).addTo({{ this._parent.get_name() }});
        {% endmacro %}
        " |}.

Definition set_mbtiles : py unit :=
  set_TileLayer_template mbtiles_template.

Definition main : py unit :=
  let offline := true in
  let offline_file_path := "offline" in
  let data_file_path := "data" in
  let mbtiles := true in
  let tile_set := "your_tiles.mbtiles" in
  let tile_path := os_path.join data_file_path ["tiles"; tile_set] in
  let attr := "e.g. OpenStreetMap contributors" in
  ((if offline then set_offline offline_file_path
    else set_online offline_file_path) ;;
   (if mbtiles then set_mbtiles else ret tt) ;;
   let m := {| folium.location := [ {| folium.digits := 33718651; folium.places := 6 |};
                                    {| folium.digits := -116218178; folium.places := 6 |} ];
               folium.tiles := tile_path;
               folium.attr := attr;
               folium.min_zoom := 0;
               folium.max_zoom := 16;
               folium.zoom_start := 4;
               folium.control_scale := true |} in
   Map_save m "index.html")%py.

End folium_offline.

(** ** [build_simple_server.py] *)

Module build_simple_server.

Definition script : py unit :=
  (_ <- subprocess.call ["pyinstaller"; "--clean"; "--onefile"; "server.py"] ;;
   ret tt)%py.

End build_simple_server.


(** ** Worlds and tables used to state the properties *)

(** A world in which nothing has been written or started and every command
    ends with status 0.  Its attribute lists are empty: the lists [folium]
    ships are not part of this repository, and every general statement
    below quantifies over them. *)
Definition blank : world :=
  {| _default_js := []; _default_css := [];
     TileLayer_template := {| jinja2.source := "" |};
     files := ∅; spawned := []; exit_status := fun _ => Some 0%Z |}.

(** Names and file names of the offline JavaScript assets, in order. *)
Definition offline_js : list (string * string) :=
  [ ("leaflet", "leaflet.js");
    ("jquery", "jquery-1.12.4.min.js");
    ("bootstrap", "bootstrap.min.js");
    ("awesome_markers", "leaflet.awesome-markers.js");
    ("sql", "sql.js");
    ("sql-wasm", "sql-wasm.js");
    ("sql-asm", "sql-adm.js");
    ("mbtiles", "Leaflet.TileLayer.MBTiles.js") ].

(** Names and file names of the offline style sheets, in order. *)
Definition offline_css : list (string * string) :=
  [ ("leaflet_css", "leaflet.css");
    ("bootstrap_css", "bootstrap.min.css");
    ("bootstrap_theme_css", "bootstrap-theme.min.css");
    ("awesome_markers_font_css", "font-awesome.min.css");
    ("awesome_markers_css", "leaflet.awesome-markers.css");
    ("awesome_rotate_css", "leaflet.awesome.rotate.css") ].

(** An asset table placed under a directory. *)
Definition under (file_path : string) (table : list (string * string))
    : list (string * string) :=
  map (fun e => (e.1, os_path.join file_path [e.2])) table.

(** The remote entries of the online JavaScript list, in order. *)
Definition online_js : list (string * string) :=
  [ ("leaflet", "https://cdn.jsdelivr.net/npm/leaflet@1.5.1/dist/leaflet.js");
    ("jquery", "https://code.jquery.com/jquery-1.12.4.min.js");
    ("bootstrap", "https://maxcdn.bootstrapcdn.com/bootstrap/3.2.0/js/bootstrap.min.js");
    ("awesome_markers", "https://cdnjs.cloudflare.com/ajax/libs/Leaflet.awesome-markers/2.0.2/leaflet.awesome-markers.js");
    ("sql", "https://unpkg.com/sql.js@0.3.2/js/sql.js") ].

Definition is_remote (url : string) : bool := str.startswith url "https://".

(** Every entry but the one named [mbtiles] points to a remote URL. *)
Definition remote_but_mbtiles (l : list (string * string)) : bool :=
  forallb (fun e => String.eqb e.1 "mbtiles" || is_remote e.2) l.

(** The reading of the online configuration under which both lists end up
    remote, whatever they held before. *)
Definition online_sets_both_lists (file_path : string) (w : world) : Prop :=
  let w' := final (folium_offline.set_online file_path w) in
  remote_but_mbtiles (_default_js w') = true /\
  remote_but_mbtiles (_default_css w') = true.

(** A layer to render the template for: its tiles are the path [main]
    uses, as a JSON string. *)
Definition dquote : string := String (Ascii.ascii_of_nat 34) EmptyString.

Definition sample_layer : folium.TileLayer :=
  {| folium.get_name := "tile_layer_1";
     folium.tiles_tojson := dquote +:+ "data/tiles/your_tiles.mbtiles" +:+ dquote;
     folium.options_tojson := "{}";
     folium._parent_get_name := "map_1" |}.

(** The command line of the packaging script. *)
Definition pyinstaller_args : list string :=
  ["pyinstaller"; "--clean"; "--onefile"; "server.py"].

(** The same world where commands end differently. *)
Definition with_exit_status (f : list string -> option Z) (w : world) : world :=
  {| _default_js := _default_js w; _default_css := _default_css w;
     TileLayer_template := TileLayer_template w; files := files w;
     spawned := spawned w; exit_status := f |}.

(** The directory part [os.path.join] puts in front of a relative file
    name: the directory itself when it is empty or already ends in a
    separator, the directory and a separator otherwise. *)
Definition dir_prefix (file_path : string) : string :=
  if String.eqb file_path "" || str.endswith file_path os_path.sep then file_path
  else file_path +:+ os_path.sep.

(** The path of every entry of a list. *)
Definition paths (l : list (string * string)) : list string := map snd l.

(** The file names of a table have no separator in them. *)
Definition plain_names (table : list (string * string)) : bool :=
  forallb (fun e => negb (str.contains e.2 os_path.sep)) table.

(** The list [set_online] builds. *)
Definition online_list (file_path : string) : list (string * string) :=
  online_js ++
  [("mbtiles", os_path.join file_path ["Leaflet.TileLayer.MBTiles.js"])].

(** ** Sequences of configuration calls

    A caller may apply the three configuration functions any number of
    times and in any order before it builds a map. *)

Inductive call :=
| SetOffline (file_path : string)
| SetOnline (file_path : string)
| SetMbtiles.

Definition do_call (c : call) : py unit :=
  match c with
  | SetOffline file_path => folium_offline.set_offline file_path
  | SetOnline file_path => folium_offline.set_online file_path
  | SetMbtiles => folium_offline.set_mbtiles
  end.

Fixpoint do_calls (cs : list call) : py unit :=
  match cs with
  | [] => ret tt
  | c :: cs' => (do_call c ;; do_calls cs')%py
  end.

(** The JavaScript list a call assigns, if it assigns one. *)
Definition js_of (c : call) : option (list (string * string)) :=
  match c with
  | SetOffline file_path => Some (under file_path offline_js)
  | SetOnline file_path => Some (online_list file_path)
  | SetMbtiles => None
  end.

(** The style-sheet list a call assigns, if it assigns one. *)
Definition css_of (c : call) : option (list (string * string)) :=
  match c with
  | SetOffline file_path => Some (under file_path offline_css)
  | _ => None
  end.

Definition is_SetMbtiles (c : call) : bool :=
  match c with
  | SetMbtiles => true
  | _ => false
  end.

(** The same world with other attribute values. *)
Definition with_attrs (js css : list (string * string)) (t : jinja2.Template)
    (w : world) : world :=
  {| _default_js := js; _default_css := css; TileLayer_template := t;
     files := files w; spawned := spawned w; exit_status := exit_status w |}.



(** ** Facts about strings and paths *)

Section StrFacts.

Implicit Types a b n s p f : string.

Lemma append_cons c a b : String c a +:+ b = String c (a +:+ b).
Proof. reflexivity. Qed.

Lemma append_assoc a b s : (a +:+ b) +:+ s = a +:+ b +:+ s.
Proof.
  induction a as [|c a IH]; [done|].
  rewrite !append_cons. by f_equal.
Qed.

Lemma startswith_empty s : str.startswith s "" = true.
Proof. by destruct s. Qed.

Lemma startswith_app_l a b n :
  str.startswith a n = true -> str.startswith (a +:+ b) n = true.
Proof.
  revert a; induction n as [|c n IH]; intros a H.
  - apply startswith_empty.
  - destruct a as [|d a]; simpl in *; [discriminate|].
    apply andb_true_iff in H as [-> H]. simpl. by apply IH.
Qed.

Lemma startswith_app_same a s n :
  str.startswith (a +:+ s) (a +:+ n) = str.startswith s n.
Proof.
  induction a as [|c a IH]; [done|].
  rewrite !append_cons. cbn [str.startswith].
  by rewrite Ascii.eqb_refl, IH.
Qed.

Lemma contains_of_startswith s n :
  str.startswith s n = true -> str.contains s n = true.
Proof. intros H. destruct s; cbn [str.contains]; by rewrite H. Qed.

Lemma contains_empty s : str.contains s "" = true.
Proof. destruct s; simpl; by rewrite ?startswith_empty. Qed.

Lemma contains_app_l a b n :
  str.contains a n = true -> str.contains (a +:+ b) n = true.
Proof.
  induction a as [|c a IH]; simpl; intros H.
  - rewrite orb_false_r in H. destruct n; [|discriminate].
    apply contains_empty.
  - apply orb_true_iff in H as [H|H].
    + apply (startswith_app_l (String c a) b) in H. simpl in H.
      by rewrite H.
    + rewrite (IH H). apply orb_true_r.
Qed.

Lemma contains_app_r a b n :
  str.contains b n = true -> str.contains (a +:+ b) n = true.
Proof.
  intros H. induction a as [|c a IH]; simpl; [done|].
  rewrite IH. apply orb_true_r.
Qed.

Lemma contains_sep_cons c s :
  str.contains (String c s) os_path.sep = Ascii.eqb c "/" || str.contains s os_path.sep.
Proof. simpl. by rewrite startswith_empty, andb_true_r. Qed.

Lemma endswith_sep_inv p :
  str.endswith p os_path.sep = true -> exists q, p = q +:+ os_path.sep.
Proof.
  induction p as [|c p IH]; [discriminate|].
  cbn [str.endswith]. intros H. apply orb_true_iff in H as [H|H].
  - apply String.eqb_eq in H. by exists "".
  - destruct (IH H) as [q ->]. by exists (String c q).
Qed.

Lemma basename_plain f :
  str.contains f os_path.sep = false -> os_path.basename f = f.
Proof.
  destruct f as [|c f]; [done|].
  rewrite contains_sep_cons. intros H.
  apply orb_false_iff in H as [Hc Hf]. cbn [os_path.basename].
  by rewrite Hf, Hc.
Qed.

Lemma basename_after_sep p f :
  str.contains f os_path.sep = false ->
  os_path.basename (p +:+ os_path.sep +:+ f) = f.
Proof.
  intros Hf. induction p as [|c p IH].
  - change ("" +:+ os_path.sep +:+ f) with (String "/" f).
    cbn [os_path.basename]. by rewrite Hf.
  - change (String c p +:+ os_path.sep +:+ f)
      with (String c (p +:+ os_path.sep +:+ f)).
    cbn [os_path.basename].
    rewrite (contains_app_r p (os_path.sep +:+ f) os_path.sep); [exact IH|].
    by apply contains_app_l.
Qed.

(** A file name without separator joined to a directory: the directory,
    a separator unless the directory is empty or ends in one, and the
    name. *)
Lemma join_file p f :
  str.contains f os_path.sep = false ->
  os_path.join p [f] =
    if String.eqb p "" || str.endswith p os_path.sep then p +:+ f
    else p +:+ os_path.sep +:+ f.
Proof.
  intros Hf. unfold os_path.join, os_path.join_step. cbn [fold_left].
  assert (str.startswith f os_path.sep = false) as ->; [|done].
  destruct f as [|c f]; [done|].
  cbn [str.contains] in Hf. by apply orb_false_iff in Hf as [-> _].
Qed.

Lemma basename_join p f :
  str.contains f os_path.sep = false ->
  os_path.basename (os_path.join p [f]) = f.
Proof.
  intros Hf. rewrite (join_file p f Hf).
  destruct (String.eqb p "") eqn:Hp; simpl.
  - apply String.eqb_eq in Hp as ->. by apply basename_plain.
  - destruct (str.endswith p os_path.sep) eqn:He.
    + destruct (endswith_sep_inv p He) as [q ->].
      rewrite append_assoc. by apply basename_after_sep.
    + by apply basename_after_sep.
Qed.

End StrFacts.

(** ** Evaluation on concrete inputs *)

Example join_offline_leaflet :
  os_path.join "offline" ["leaflet.js"] = "offline/leaflet.js".
Proof. reflexivity. Qed.

Example join_trailing_sep :
  os_path.join "assets/" ["leaflet.css"] = "assets/leaflet.css".
Proof. reflexivity. Qed.

Example join_empty_dir : os_path.join "" ["sql.js"] = "sql.js".
Proof. reflexivity. Qed.

Example join_tile_path :
  os_path.join "data" ["tiles"; "your_tiles.mbtiles"] =
    "data/tiles/your_tiles.mbtiles".
Proof. reflexivity. Qed.

Example join_absolute_part : os_path.join "offline" ["/srv/x.js"] = "/srv/x.js".
Proof. reflexivity. Qed.

Example basename_nested : os_path.basename "a/b/sql-adm.js" = "sql-adm.js".
Proof. reflexivity. Qed.

Example set_offline_js_at_offline :
  _default_js (final (folium_offline.set_offline "offline" blank)) =
    [ ("leaflet", "offline/leaflet.js");
      ("jquery", "offline/jquery-1.12.4.min.js");
      ("bootstrap", "offline/bootstrap.min.js");
      ("awesome_markers", "offline/leaflet.awesome-markers.js");
      ("sql", "offline/sql.js");
      ("sql-wasm", "offline/sql-wasm.js");
      ("sql-asm", "offline/sql-adm.js");
      ("mbtiles", "offline/Leaflet.TileLayer.MBTiles.js") ].
Proof. reflexivity. Qed.

Example set_online_js_at_offline :
  map snd (_default_js (final (folium_offline.set_online "offline" blank))) =
    [ "https://cdn.jsdelivr.net/npm/leaflet@1.5.1/dist/leaflet.js";
      "https://code.jquery.com/jquery-1.12.4.min.js";
      "https://maxcdn.bootstrapcdn.com/bootstrap/3.2.0/js/bootstrap.min.js";
      "https://cdnjs.cloudflare.com/ajax/libs/Leaflet.awesome-markers/2.0.2/leaflet.awesome-markers.js";
      "https://unpkg.com/sql.js@0.3.2/js/sql.js";
      "offline/Leaflet.TileLayer.MBTiles.js" ].
Proof. reflexivity. Qed.

Example lex_unclosed_tag :
  jinja2.tokens {| jinja2.source := "var {{ this.get_name() " |} = None.
Proof. reflexivity. Qed.

Example sample_layer_script :
  folium.script folium_offline.mbtiles_template sample_layer =
    Some ("
            var tile_layer_1 = L.tileLayer.mbTiles(
                " +:+ dquote +:+ "data/tiles/your_tiles.mbtiles" +:+ dquote +:+ ",
                {}
            ).addTo(map_1);
        ").
Proof. reflexivity. Qed.

Example blank_template_has_no_script :
  folium.script (TileLayer_template blank) sample_layer = None.
Proof. reflexivity. Qed.

Example build_on_blank :
  build_simple_server.script blank =
    Returns tt (with_spawned ["pyinstaller"; "--clean"; "--onefile"; "server.py"] blank).
Proof. reflexivity. Qed.

Example build_without_pyinstaller :
  build_simple_server.script (with_exit_status (fun _ => None) blank) =
    Raises OSError
      (with_spawned pyinstaller_args (with_exit_status (fun _ => None) blank)).
Proof. reflexivity. Qed.

(** ** The configuration functions *)

(** C1. For every [file_path], [set_offline file_path] returns and leaves
    [_default_js] holding the eight names leaflet, jquery, bootstrap,
    awesome_markers, sql, sql-wasm, sql-asm, mbtiles and [_default_css]
    the six names leaflet_css, bootstrap_css, bootstrap_theme_css,
    awesome_markers_font_css, awesome_markers_css, awesome_rotate_css, in
    that order, each paired with [os.path.join] of [file_path] and the
    entry's fixed file name. *)
Theorem set_offline_lists (file_path : string) (w : world) :
  let o := folium_offline.set_offline file_path w in
  returns o = true /\
  _default_js (final o) = under file_path offline_js /\
  _default_css (final o) = under file_path offline_css /\
  map fst (_default_js (final o)) =
    ["leaflet"; "jquery"; "bootstrap"; "awesome_markers";
     "sql"; "sql-wasm"; "sql-asm"; "mbtiles"] /\
  map fst (_default_css (final o)) =
    ["leaflet_css"; "bootstrap_css"; "bootstrap_theme_css";
     "awesome_markers_font_css"; "awesome_markers_css"; "awesome_rotate_css"] /\
  map snd (_default_js (final o)) =
    map (fun f => os_path.join file_path [f])
      ["leaflet.js"; "jquery-1.12.4.min.js"; "bootstrap.min.js";
       "leaflet.awesome-markers.js"; "sql.js"; "sql-wasm.js"; "sql-adm.js";
       "Leaflet.TileLayer.MBTiles.js"] /\
  map snd (_default_css (final o)) =
    map (fun f => os_path.join file_path [f])
      ["leaflet.css"; "bootstrap.min.css"; "bootstrap-theme.min.css";
       "font-awesome.min.css"; "leaflet.awesome-markers.css";
       "leaflet.awesome.rotate.css"].
Proof. repeat split. Qed.

(** C2, as the code has it. For every [file_path], [set_online file_path]
    returns and leaves [_default_js] holding the five remote entries
    followed by the entry mbtiles, whose path is [os.path.join] of
    [file_path] and Leaflet.TileLayer.MBTiles.js; every entry but mbtiles
    is a remote URL; [_default_css] is not assigned and keeps the value it
    had. *)
Theorem set_online_js_list (file_path : string) (w : world) :
  let o := folium_offline.set_online file_path w in
  returns o = true /\
  _default_js (final o) =
    (online_js ++
     [("mbtiles", os_path.join file_path ["Leaflet.TileLayer.MBTiles.js"])])%list /\
  remote_but_mbtiles (_default_js (final o)) = true /\
  forallb (fun e => is_remote e.2) online_js = true /\
  _default_css (final o) = _default_css w.
Proof. repeat split. Qed.

(** C2 as stated fails: after [set_offline "offline"], the call
    [set_online "offline"] leaves the style-sheet list with its local
    paths, so the lists are not both remote. *)
Lemma set_online_css_stays_local :
  let w := final (folium_offline.set_offline "offline" blank) in
  _default_css (final (folium_offline.set_online "offline" w)) =
    [ ("leaflet_css", "offline/leaflet.css");
      ("bootstrap_css", "offline/bootstrap.min.css");
      ("bootstrap_theme_css", "offline/bootstrap-theme.min.css");
      ("awesome_markers_font_css", "offline/font-awesome.min.css");
      ("awesome_markers_css", "offline/leaflet.awesome-markers.css");
      ("awesome_rotate_css", "offline/leaflet.awesome.rotate.css") ] /\
  ~ online_sets_both_lists "offline" w.
Proof.
  split; [reflexivity|].
  intros [_ H]. vm_compute in H. discriminate.
Qed.

(** C8. For every [file_path], [set_online file_path] assigns only
    [_default_js]: [_default_css], and with it every other part of the
    world, is what it was before the call. *)
Theorem set_online_frame (file_path : string) (w : world) :
  let w' := final (folium_offline.set_online file_path w) in
  _default_css w' = _default_css w /\
  TileLayer_template w' = TileLayer_template w /\
  files w' = files w /\
  spawned w' = spawned w /\
  _default_css (final (folium_offline.set_online file_path
                  (final (folium_offline.set_offline file_path w)))) =
    under file_path offline_css.
Proof. repeat split. Qed.

(** C5. For every [file_path] and whatever files exist, [set_offline] and
    [set_online] return without raising; they leave the files as they
    are, and the attribute values they produce are the same over any
    other set of files: nothing on disk is consulted. *)
Theorem configuration_ignores_files (file_path : string) (w : world)
    (fs : gmap string content) :
  folium_offline.set_offline file_path (with_files fs w) =
    Returns tt (with_files fs (final (folium_offline.set_offline file_path w))) /\
  folium_offline.set_online file_path (with_files fs w) =
    Returns tt (with_files fs (final (folium_offline.set_online file_path w))) /\
  returns (folium_offline.set_offline file_path (with_files ∅ w)) = true /\
  returns (folium_offline.set_online file_path (with_files ∅ w)) = true /\
  files (final (folium_offline.set_offline file_path w)) = files w /\
  files (final (folium_offline.set_online file_path w)) = files w.
Proof. repeat split. Qed.

(** C6. [set_offline file_path] overwrites both lists: what they hold
    afterwards does not depend on what they held before; calling it twice,
    or after [set_online file_path], ends in the same world as calling it
    once. *)
Theorem set_offline_overwrites (file_path : string) (w1 w2 : world) :
  _default_js (final (folium_offline.set_offline file_path w1)) =
    _default_js (final (folium_offline.set_offline file_path w2)) /\
  _default_css (final (folium_offline.set_offline file_path w1)) =
    _default_css (final (folium_offline.set_offline file_path w2)) /\
  (folium_offline.set_offline file_path ;;
   folium_offline.set_offline file_path)%py w1 =
    folium_offline.set_offline file_path w1 /\
  (folium_offline.set_online file_path ;;
   folium_offline.set_offline file_path)%py w1 =
    folium_offline.set_offline file_path w1.
Proof. repeat split. Qed.

(** C9. In the list [set_offline file_path] produces, the entry named
    sql-asm is the seventh and the only one of that name; its path is
    [os.path.join] of [file_path] and sql-adm.js, whose base name is
    sql-adm.js and not sql-asm.js, and which is not the path of
    sql-asm.js under [file_path]. *)
Theorem sql_asm_entry (file_path : string) (w : world) :
  let js := _default_js (final (folium_offline.set_offline file_path w)) in
  let path := os_path.join file_path ["sql-adm.js"] in
  js !! 6%nat = Some ("sql-asm", path) /\
  filter (fun e => e.1 = "sql-asm") js = [("sql-asm", path)] /\
  os_path.basename path = "sql-adm.js" /\
  os_path.basename path <> "sql-asm.js" /\
  path <> os_path.join file_path ["sql-asm.js"].
Proof.
  intros js path.
  assert (Hb : os_path.basename path = "sql-adm.js")
    by (by apply basename_join).
  repeat split.
  - exact Hb.
  - by rewrite Hb.
  - intros H. apply (f_equal os_path.basename) in H.
    rewrite Hb, basename_join in H; done.
Qed.

(** ** The template override *)

(** The body of the macro [script] of the override, as [jinja2] reads it. *)
Lemma mbtiles_template_body :
  match jinja2.tokens folium_offline.mbtiles_template with
  | Some ts => jinja2.find_macro "script" ts
  | None => None
  end =
  Some [ jinja2.Data "
            var "; jinja2.Var " this.get_name() ";
         jinja2.Data " = L.tileLayer.mbTiles(
                "; jinja2.Var " this.tiles|tojson ";
         jinja2.Data ",
                "; jinja2.Var " this.options|tojson ";
         jinja2.Data "
            ).addTo("; jinja2.Var " this._parent.get_name() ";
         jinja2.Data ");
        " ].
Proof. vm_compute. reflexivity. Qed.

(** What the override renders for a layer. *)
Lemma mbtiles_script (this : folium.TileLayer) :
  folium.script folium_offline.mbtiles_template this =
  Some ("
            var " +:+ folium.get_name this +:+ " = L.tileLayer.mbTiles(
                " +:+ folium.tiles_tojson this +:+ ",
                " +:+ folium.options_tojson this +:+ "
            ).addTo(" +:+ folium._parent_get_name this +:+ ");
        ").
Proof.
  unfold folium.script, jinja2.call_macro.
  pose proof mbtiles_template_body as H.
  destruct (jinja2.tokens folium_offline.mbtiles_template) as [ts|];
    [|discriminate].
  rewrite H. reflexivity.
Qed.

(** C4. [set_mbtiles] returns and replaces [TileLayer._template]; for every
    layer the script rendered from the new template binds the layer's
    name to a call of [L.tileLayer.mbTiles], given the layer's tiles and
    options and added to the layer's parent, so the output contains the
    constructor name [L.tileLayer.mbTiles]. *)
Theorem set_mbtiles_script (w : world) (this : folium.TileLayer) :
  let o := folium_offline.set_mbtiles w in
  returns o = true /\
  exists out,
    folium.script (TileLayer_template (final o)) this = Some out /\
    out = "
            var " +:+ folium.get_name this +:+ " = L.tileLayer.mbTiles(
                " +:+ folium.tiles_tojson this +:+ ",
                " +:+ folium.options_tojson this +:+ "
            ).addTo(" +:+ folium._parent_get_name this +:+ ");
        " /\
    str.contains out "L.tileLayer.mbTiles" = true /\
    str.contains out (folium.get_name this +:+ " = L.tileLayer.mbTiles(") = true.
Proof.
  split; [reflexivity|].
  eexists. split; [apply mbtiles_script|]. split; [reflexivity|].
  split.
  - apply contains_app_r, contains_app_r, contains_app_l. reflexivity.
  - apply contains_app_r, contains_of_startswith.
    rewrite startswith_app_same. apply startswith_app_l. reflexivity.
Qed.

(** C10. [set_mbtiles] returns and changes [TileLayer._template] only: the
    two asset lists, the files and the started commands are as before;
    and it commutes with [set_offline] and with [set_online]. *)
Theorem set_mbtiles_frame (file_path : string) (w : world) :
  let o := folium_offline.set_mbtiles w in
  returns o = true /\
  _default_js (final o) = _default_js w /\
  _default_css (final o) = _default_css w /\
  files (final o) = files w /\
  spawned (final o) = spawned w /\
  (folium_offline.set_mbtiles ;; folium_offline.set_offline file_path)%py w =
    (folium_offline.set_offline file_path ;; folium_offline.set_mbtiles)%py w /\
  (folium_offline.set_mbtiles ;; folium_offline.set_online file_path)%py w =
    (folium_offline.set_online file_path ;; folium_offline.set_mbtiles)%py w.
Proof. repeat split. Qed.

(** ** The map *)

(** [main] returns; it ends in the world where both lists are the offline
    ones under offline, the template is the override, and index.html
    holds the page of the map over data/tiles/your_tiles.mbtiles. *)
Lemma main_outcome (w : world) :
  let w1 := final ((folium_offline.set_offline "offline" ;;
                    folium_offline.set_mbtiles)%py w) in
  let m := {| folium.location := [ {| folium.digits := 33718651; folium.places := 6 |};
                                   {| folium.digits := -116218178; folium.places := 6 |} ];
              folium.tiles := "data/tiles/your_tiles.mbtiles";
              folium.attr := "e.g. OpenStreetMap contributors";
              folium.min_zoom := 0;
              folium.max_zoom := 16;
              folium.zoom_start := 4;
              folium.control_scale := true |} in
  let p := {| folium.page_js := under "offline" offline_js;
              folium.page_css := under "offline" offline_css;
              folium.page_template := folium_offline.mbtiles_template;
              folium.page_map := m |} in
  folium_offline.main w =
    Returns tt (with_files (<["index.html" := Html p]> (files w)) w1).
Proof. reflexivity. Qed.

(** [main] writes index.html and no other file. *)
Lemma main_other_files (w : world) (path : string) :
  path <> "index.html" ->
  files (final (folium_offline.main w)) !! path = files w !! path.
Proof.
  intros Hne. rewrite main_outcome. cbn [final with_files files].
  by rewrite lookup_insert_ne.
Qed.

(** ** The packaging script *)

(** C7. The script asks for one command, pyinstaller --clean --onefile
    server.py, and nothing else changes.  When the command starts, the
    script returns whatever the exit status; when it cannot be started,
    the error of [subprocess.call] propagates. *)
Theorem build_runs_pyinstaller_once (w : world) :
  let o := build_simple_server.script w in
  pyinstaller_args = ["pyinstaller"; "--clean"; "--onefile"; "server.py"] /\
  last pyinstaller_args = Some "server.py" /\
  final o = with_spawned pyinstaller_args w /\
  spawned (final o) = (spawned w ++ [pyinstaller_args])%list /\
  o = match exit_status w pyinstaller_args with
      | Some _ => Returns tt (with_spawned pyinstaller_args w)
      | None => Raises OSError (with_spawned pyinstaller_args w)
      end /\
  (forall code : Z,
     build_simple_server.script (with_exit_status (fun _ => Some code) w) =
       Returns tt (with_exit_status (fun _ => Some code)
                     (with_spawned pyinstaller_args w))).
Proof.
  cbv zeta.
  assert (build_simple_server.script w =
          match exit_status w pyinstaller_args with
          | Some _ => Returns tt (with_spawned pyinstaller_args w)
          | None => Raises OSError (with_spawned pyinstaller_args w)
          end) as Ho.
  { unfold build_simple_server.script, bind, subprocess.call, ret.
    fold pyinstaller_args. by destruct (exit_status w pyinstaller_args). }
  repeat split; try done.
  - rewrite Ho. by destruct (exit_status w pyinstaller_args).
  - rewrite Ho. by destruct (exit_status w pyinstaller_args).
Qed.

(** ** The shape of the offline paths *)

Section PathFacts.

Implicit Types p f s : string.

Lemma startswith_app_self p s : str.startswith (p +:+ s) p = true.
Proof.
  induction p as [|c p IH]; [apply startswith_empty|].
  rewrite append_cons. cbn [str.startswith]. by rewrite Ascii.eqb_refl.
Qed.

Lemma endswith_app_sep p :
  str.endswith (p +:+ os_path.sep) os_path.sep = true.
Proof.
  induction p as [|c p IH]; [done|].
  rewrite append_cons. cbn [str.endswith]. rewrite IH. apply orb_true_r.
Qed.

Lemma plain_not_absolute f :
  str.contains f os_path.sep = false -> str.startswith f os_path.sep = false.
Proof.
  destruct f as [|c f]; [done|]. cbn [str.contains].
  intros H. by apply orb_false_iff in H as [-> _].
Qed.

Lemma join_dir_prefix p f :
  str.contains f os_path.sep = false ->
  os_path.join p [f] = dir_prefix p +:+ f.
Proof.
  intros Hf. rewrite (join_file p f Hf). unfold dir_prefix.
  destruct (String.eqb p "" || str.endswith p os_path.sep); [done|].
  by rewrite append_assoc.
Qed.

Lemma dir_prefix_trailing_sep p :
  p <> "" -> str.endswith p os_path.sep = false ->
  dir_prefix (p +:+ os_path.sep) = dir_prefix p.
Proof.
  intros Hp He. unfold dir_prefix.
  rewrite endswith_app_sep, orb_true_r, He, orb_false_r.
  destruct (String.eqb p "") eqn:E; [|done].
  by apply String.eqb_eq in E.
Qed.

Lemma dir_prefix_starts p s : str.startswith (dir_prefix p +:+ s) p = true.
Proof.
  unfold dir_prefix.
  destruct (String.eqb p "" || str.endswith p os_path.sep).
  - apply startswith_app_self.
  - rewrite append_assoc. apply startswith_app_self.
Qed.

Lemma dir_prefix_absolute p f :
  str.contains f os_path.sep = false ->
  str.startswith (dir_prefix p +:+ f) os_path.sep = str.startswith p os_path.sep.
Proof.
  intros Hf. destruct p as [|c p].
  - by apply plain_not_absolute.
  - unfold dir_prefix.
    destruct (String.eqb (String c p) "" || str.endswith (String c p) os_path.sep);
      rewrite !append_cons; cbn [str.startswith os_path.sep];
      by rewrite !startswith_empty.
Qed.

Lemma under_plain p (table : list (string * string)) :
  plain_names table = true ->
  under p table = map (fun e => (e.1, dir_prefix p +:+ e.2)) table.
Proof.
  induction table as [|e table IH]; [done|].
  cbn [plain_names forallb]. intros H.
  apply andb_true_iff in H as [He Ht]. apply negb_true_iff in He.
  cbn [under map]. f_equal; [|by apply IH].
  by rewrite join_dir_prefix.
Qed.

Lemma under_basenames p (table : list (string * string)) :
  plain_names table = true ->
  map os_path.basename (paths (under p table)) = map snd table.
Proof.
  induction table as [|e table IH]; [done|].
  cbn [plain_names forallb]. intros H.
  apply andb_true_iff in H as [He Ht]. apply negb_true_iff in He.
  cbn [under paths map]. f_equal; [|by apply IH].
  by apply basename_join.
Qed.

End PathFacts.

(** What [set_offline] and [set_online] return, with the world written
    through [with_attrs]. *)
Lemma set_offline_outcome (file_path : string) (w : world) :
  folium_offline.set_offline file_path w =
    Returns tt (with_attrs (under file_path offline_js)
                  (under file_path offline_css) (TileLayer_template w) w).
Proof. reflexivity. Qed.

Lemma set_online_outcome (file_path : string) (w : world) :
  folium_offline.set_online file_path w =
    Returns tt (with_attrs (online_list file_path) (_default_css w)
                  (TileLayer_template w) w).
Proof. reflexivity. Qed.

Lemma set_mbtiles_outcome (w : world) :
  folium_offline.set_mbtiles w =
    Returns tt (with_attrs (_default_js w) (_default_css w)
                  folium_offline.mbtiles_template w).
Proof. reflexivity. Qed.

(** X1. Every path [set_offline file_path] configures is the entry's file
    name behind one directory prefix: [file_path] itself when it is empty
    or ends in a separator, [file_path] and a separator otherwise.  An
    empty [file_path] gives bare file names; no separator is doubled. *)
Theorem set_offline_paths_shape (file_path : string) (w : world) :
  let w' := final (folium_offline.set_offline file_path w) in
  let dir := if String.eqb file_path "" || str.endswith file_path "/"
             then file_path else file_path +:+ "/" in
  _default_js w' = map (fun e => (e.1, dir +:+ e.2)) offline_js /\
  _default_css w' = map (fun e => (e.1, dir +:+ e.2)) offline_css.
Proof.
  rewrite set_offline_outcome. cbn [final with_attrs _default_js _default_css].
  split; by apply under_plain.
Qed.

(** X2. A trailing separator on a directory that is not empty and does not
    already end in one makes no difference: [set_offline] and [set_online]
    end in the same world with or without it. *)
Theorem configuration_trailing_sep (file_path : string) (w : world) :
  file_path <> "" ->
  str.endswith file_path "/" = false ->
  folium_offline.set_offline (file_path +:+ "/") w =
    folium_offline.set_offline file_path w /\
  folium_offline.set_online (file_path +:+ "/") w =
    folium_offline.set_online file_path w.
Proof.
  intros Hp He.
  change (file_path +:+ "/") with (file_path +:+ os_path.sep).
  rewrite !set_offline_outcome, !set_online_outcome.
  rewrite !under_plain by done. unfold online_list.
  rewrite !join_dir_prefix by done.
  by rewrite (dir_prefix_trailing_sep file_path Hp He).
Qed.

Lemma configuration_trailing_sep_witness :
  folium_offline.set_offline ("offline" +:+ "/") blank =
    folium_offline.set_offline "offline" blank /\
  folium_offline.set_online ("offline" +:+ "/") blank =
    folium_offline.set_online "offline" blank.
Proof.
  apply (configuration_trailing_sep "offline" blank); [discriminate|reflexivity].
Defined.

(** X3. Whatever [file_path] is, the base name of every configured path is
    the entry's file name: the directory never changes which file an
    entry names. *)
Theorem offline_basenames (file_path : string) (w : world) :
  let w' := final (folium_offline.set_offline file_path w) in
  map os_path.basename (paths (_default_js w')) = map snd offline_js /\
  map os_path.basename (paths (_default_css w')) = map snd offline_css.
Proof.
  rewrite set_offline_outcome. cbn [final with_attrs _default_js _default_css].
  split; by apply under_basenames.
Qed.

(** X4. Whatever [file_path] is, the fourteen paths [set_offline]
    configures are pairwise distinct: no two entries share a file. *)
Theorem offline_paths_distinct (file_path : string) (w : world) :
  let w' := final (folium_offline.set_offline file_path w) in
  NoDup (paths (_default_js w') ++ paths (_default_css w')).
Proof.
  rewrite set_offline_outcome. cbn [final with_attrs _default_js _default_css].
  apply (NoDup_fmap_1 os_path.basename).
  rewrite fmap_app.
  change (NoDup (map os_path.basename (paths (under file_path offline_js)) ++
                 map os_path.basename (paths (under file_path offline_css)))).
  rewrite !under_basenames by done.
  apply (bool_decide_unpack _). vm_compute. reflexivity.
Qed.

(** X5. Every path [set_offline file_path] configures starts with
    [file_path], and is absolute exactly when [file_path] is. *)
Theorem offline_paths_under_dir (file_path : string) (w : world) :
  let w' := final (folium_offline.set_offline file_path w) in
  forallb (fun path =>
             str.startswith path file_path &&
             Bool.eqb (str.startswith path "/") (str.startswith file_path "/"))
    (paths (_default_js w') ++ paths (_default_css w')) = true.
Proof.
  rewrite set_offline_outcome. cbn [final with_attrs _default_js _default_css].
  rewrite !under_plain by done.
  apply forallb_forall. intros path Hin.
  assert (exists f, str.contains f os_path.sep = false /\
                    path = dir_prefix file_path +:+ f) as (f & Hf & ->).
  { apply in_app_or in Hin as [Hin|Hin]; unfold paths in Hin;
      rewrite map_map in Hin; apply in_map_iff in Hin as (e & <- & He);
      exists e.2; (split; [|done]).
    - assert (plain_names offline_js = true) as H by done.
      unfold plain_names in H. rewrite forallb_forall in H.
      by apply negb_true_iff, H.
    - assert (plain_names offline_css = true) as H by done.
      unfold plain_names in H. rewrite forallb_forall in H.
      by apply negb_true_iff, H. }
  change "/" with os_path.sep.
  rewrite dir_prefix_starts, (dir_prefix_absolute file_path f Hf).
  by destruct (str.startswith file_path os_path.sep).
Qed.

(** The two conditions of X2 are needed: a separator added to the empty
    directory makes the paths absolute, and one added after a separator
    is kept. *)
Example trailing_sep_on_empty_dir :
  paths (_default_css (final (folium_offline.set_offline ("" +:+ "/") blank))) <>
  paths (_default_css (final (folium_offline.set_offline "" blank))).
Proof. discriminate. Qed.

Example trailing_sep_doubled :
  os_path.join ("offline/" +:+ "/") ["leaflet.js"] = "offline//leaflet.js".
Proof. reflexivity. Qed.

(** ** The two modes side by side *)

(** X6. For every [file_path] the entry mbtiles closes the JavaScript list
    in both modes and is the same local path in both; the names
    [set_online] configures are those [set_offline] configures, in the
    same order, without sql-wasm and sql-asm. *)
Theorem mbtiles_entry_both_modes (file_path : string) (w : world) :
  let off := _default_js (final (folium_offline.set_offline file_path w)) in
  let on := _default_js (final (folium_offline.set_online file_path w)) in
  let entry := ("mbtiles", os_path.join file_path ["Leaflet.TileLayer.MBTiles.js"]) in
  last off = Some entry /\
  last on = Some entry /\
  filter (fun e => e.1 = "mbtiles") off = [entry] /\
  filter (fun e => e.1 = "mbtiles") on = [entry] /\
  map fst on =
    filter (fun n => n <> "sql-wasm" /\ n <> "sql-asm") (map fst off).
Proof. repeat split. Qed.

(** X8. [set_offline] and [set_online] do not commute, whatever their
    directories: the later call decides the JavaScript list, and the two
    lists differ in length. *)
Theorem offline_online_do_not_commute (p q : string) (w : world) :
  (folium_offline.set_offline p ;; folium_offline.set_online q)%py w <>
  (folium_offline.set_online q ;; folium_offline.set_offline p)%py w.
Proof.
  intros H.
  apply (f_equal (fun o => length (_default_js (final o)))) in H.
  discriminate H.
Qed.

(** ** Any sequence of configuration calls *)

Lemma last_omap_cons {A B} (f : A -> option B) (x : A) (l : list A) (d : B) :
  default d (last (omap f (x :: l))) =
  default (default d (f x)) (last (omap f l)).
Proof.
  cbn [omap list_omap]. destruct (f x) as [y|]; [|done].
  rewrite last_cons. by destruct (last (omap f l)).
Qed.

(** X7. Any sequence of calls of the three configuration functions
    returns.  Afterwards the JavaScript list is the one of the last
    [set_offline] or [set_online] call, the style-sheet list the one of
    the last [set_offline] call, the template the override if
    [set_mbtiles] was called at all; what no call assigned is as before,
    and so are the files and the started commands. *)
Theorem configuration_calls_last_wins (cs : list call) (w : world) :
  do_calls cs w =
    Returns tt
      (with_attrs
         (default (_default_js w) (last (omap js_of cs)))
         (default (_default_css w) (last (omap css_of cs)))
         (if existsb is_SetMbtiles cs then folium_offline.mbtiles_template
          else TileLayer_template w)
         w).
Proof.
  revert w. induction cs as [|c cs IH]; intros w; [by destruct w|].
  cbn [do_calls]. unfold bind.
  rewrite !last_omap_cons. cbn [existsb].
  destruct c as [p|p|]; cbn [do_call js_of css_of is_SetMbtiles default].
  - rewrite set_offline_outcome, IH. reflexivity.
  - rewrite set_online_outcome, IH. reflexivity.
  - rewrite set_mbtiles_outcome, IH. cbn [orb].
    cbn [with_attrs _default_js _default_css TileLayer_template
         files spawned exit_status].
    by destruct (existsb is_SetMbtiles cs).
Qed.

(** ** Running [main] again *)



(** ** The macros of the override *)



